(** * The dashboard layout of [app/(dashboard)/layout.tsx]

    The repository has one executable artefact, the React component

<<
    const DashBoardLayout = ( {children} ) => {
        return <div>
            <h1>Dashboard</h1>
            <div>{children}</div>
        </div>
    }
>>

    This development embeds the component as a function from a props
    object to the element tree it returns, and states the properties of the
    specification about that tree.  Where a property is about throwing or
    about effects, the call is followed through the engine, which reads
    [children] off the argument, and the JSX runtime, which constructs the
    elements. *)

From stdpp Require Import gmap strings list fin_maps.

Set Warnings "-register-all".

(** ** Values a component receives as children and returns *)

Module React.

(** A [ReactNode] is what JSX accepts between two tags: nothing
    ([undefined], [null], a boolean), text, a number, a sequence of nodes,
    or an element.  An element is a tag together with its props object;
    what stands between its tags is the prop named ["children"].  A number
    is kept as the text the display layer shows for it, since the layout
    never computes with it. *)
Inductive ReactNode : Type :=
| RUndefined
| RNull
| RBool (b : bool)
| RNumber (shown : string)
| RText (s : string)
| RArray (items : list ReactNode)
| RElement (type : string) (props : gmap string ReactNode).

(** A props object is a JS object used as a map from property names. *)
Abbreviation Props := (gmap string ReactNode).

(** Reading a property of an object; a missing property reads as
    [undefined].  The binding pattern [{children}] of the component is
    [prop props "children"]. *)
Definition prop (props : Props) (name : string) : ReactNode :=
  default RUndefined (props !! name).

(** [<type ...props>] : the element a JSX tag evaluates to. *)
Definition jsx (type : string) (props : Props) : ReactNode :=
  RElement type props.

(** The tag of an element, if the node is one. *)
Definition element_type (v : ReactNode) : option string :=
  match v with
  | RElement type _ => Some type
  | _ => None
  end.

(** The props of an element, if the node is one. *)
Definition element_props (v : ReactNode) : option Props :=
  match v with
  | RElement _ props => Some props
  | _ => None
  end.

(** [el.props.children] : what stands between the tags of an element. *)
Definition element_children (v : ReactNode) : ReactNode :=
  match v with
  | RElement _ props => prop props "children"
  | _ => RUndefined
  end.

(** The child nodes of a children value, as [React.Children.toArray] lists
    them: sequences are flattened, and [undefined], [null] and booleans
    are left out. *)
Fixpoint toArray (v : ReactNode) : list ReactNode :=
  match v with
  | RUndefined | RNull | RBool _ => []
  | RArray items => concat (map toArray items)
  | _ => [v]
  end.

(** An element given by its tag and props, for sequences of elements. *)
Definition element_of (tp : string * Props) : ReactNode :=
  RElement tp.1 tp.2.

End React.

Import React.

(** ** What a node displays *)

Module Display.

(** The display layer walks a tree in document order.  An element opens
    with its tag and its attributes (the props other than ["children"]),
    shows its children, and closes. *)
Inductive Token : Type :=
| TOpen (type : string) (attrs : Props)
| TText (s : string)
| TClose (type : string).

Definition text_tokens (s : string) : list Token :=
  if decide (s = EmptyString) then [] else [TText s].

(** [undefined], [null], booleans and the empty string display nothing; a
    sequence displays its items one after the other. *)
Fixpoint render (v : ReactNode) : list Token :=
  match v with
  | RUndefined | RNull | RBool _ => []
  | RNumber shown => text_tokens shown
  | RText s => text_tokens s
  | RArray items => concat (map render items)
  | RElement type props =>
      TOpen type (delete "children" props)
        :: default [] ((render <$> props) !! "children") ++ [TClose type]
  end.

(** The text of a node: the text of its leaves, in document order. *)
Fixpoint text_content (v : ReactNode) : string :=
  match v with
  | RUndefined | RNull | RBool _ => EmptyString
  | RNumber shown => shown
  | RText s => s
  | RArray items => String.concat EmptyString (map text_content items)
  | RElement _ props =>
      default EmptyString ((text_content <$> props) !! "children")
  end.

(** The number of nodes of a tree. *)
Fixpoint node_count (v : ReactNode) : nat :=
  match v with
  | RArray items => S (foldr Nat.add 0%nat (map node_count items))
  | RElement _ props =>
      S (default 0%nat ((node_count <$> props) !! "children"))
  | _ => 1%nat
  end.

(** A node that displays nothing. *)
Definition empty_node (v : ReactNode) : Prop := render v = [].

(** [xs] occurs in [l], and [ys] occurs in [l] after it. *)
Definition followed_by {A : Type} (l xs ys : list A) : Prop :=
  ∃ pre mid post, l = pre ++ xs ++ mid ++ ys ++ post.

End Display.

Import Display.

(** ** Calls that may throw or touch the world around them *)

Module Effect.

(** How a JS call completes: with a value, or by throwing. *)
Inductive Completion (A : Type) : Type :=
| Normal (a : A)
| Throw (reason : string).
Arguments Normal {A} a.
Arguments Throw {A} reason.

(** A call reads the state of everything outside it (the document, module
    variables, the console) and leaves a state behind. *)
Definition Render (World A : Type) : Type := World → Completion A * World.

(** [return a] : complete with [a], leaving the world as it was. *)
Definition ret {World A : Type} (a : A) : Render World A :=
  λ w, (Normal a, w).

End Effect.

Import Effect.

(** ** The component *)

Section Layout.

Context {World : Type}.

(** A component is called with its props object: for
    [<DashBoardLayout>...</DashBoardLayout>] the object holds what stands
    between the tags under ["children"], and for [<DashBoardLayout />] it
    has no such field.  The parameter [( {children} )] reads that field, and
    the body is the JSX of the source: an outer [div] with two children,
    the [h1] with the text [Dashboard] and an inner [div] around
    [{children}]. *)
Definition DashBoardLayout (props : Props) : Render World ReactNode :=
  let children := prop props "children" in
  ret (jsx "div" {[ "children" :=
         RArray [ jsx "h1" {[ "children" := RText "Dashboard" ]};
                  jsx "div" {[ "children" := children ]} ] ]}).

End Layout.

(** The heading and the content region of a returned tree: the first and
    the second child of the outer container. *)
Definition heading_of (out : ReactNode) : option ReactNode :=
  toArray (element_children out) !! 0%nat.

Definition content_region_of (out : ReactNode) : option ReactNode :=
  toArray (element_children out) !! 1%nat.

(** The fixed heading [<h1>Dashboard</h1>]. *)
Definition heading : ReactNode :=
  jsx "h1" {[ "children" := RText "Dashboard" ]}.

(** The content region [<div>{children}</div>] around a children value. *)
Definition content_region (V : ReactNode) : ReactNode :=
  jsx "div" {[ "children" := V ]}.

(** What the display layer shows before and after the children. *)
Definition frame_before : list Token :=
  [ TOpen "div" ∅; TOpen "h1" ∅; TText "Dashboard"; TClose "h1";
    TOpen "div" ∅ ].

Definition frame_after : list Token :=
  [ TClose "div"; TClose "div" ].

(** ** Props objects used as concrete inputs *)

(** [<DashBoardLayout>Hello</DashBoardLayout>] *)
Definition props_hello : Props :=
  {[ "children" := RText "Hello" ]}.

(** The same children next to another prop:
    [<DashBoardLayout title="Home">Hello</DashBoardLayout>] *)
Definition props_hello_title : Props :=
  <[ "title" := RText "Home" ]> props_hello.

(** [<DashBoardLayout />] : no children at all. *)
Definition props_none : Props := ∅.

(** [<DashBoardLayout><p>one</p><p>two</p></DashBoardLayout>] *)
Definition two_paragraphs : list (string * Props) :=
  [ ("p", {[ "children" := RText "one" ]});
    ("p", {[ "children" := RText "two" ]}) ].

(** ** A layout around a layout *)

Section Nesting.

Context {World : Type}.

(** One call after another: the second runs in the world the first left
    behind, and a throw of the first ends the sequence. *)
Definition bind {A B : Type}
    (call : Render World A) (next : A → Render World B) : Render World B :=
  λ w,
    match call w with
    | (Normal a, w') => next a w'
    | (Throw reason, w') => (Throw reason, w')
    end.

(** The component called on the tree of an earlier call, [n] times over,
    starting from a children value:
    [DashBoardLayout({children: DashBoardLayout({children: V})})] is
    [nested 2 V]. *)
Fixpoint nested (n : nat) (V : ReactNode) : Render World ReactNode :=
  match n with
  | O => ret V
  | S n' =>
      bind (nested n' V)
        (λ inner, DashBoardLayout {[ "children" := inner ]})
  end.

End Nesting.

(** What stands in the content region of a tree, if it has one. *)
Definition unwrap (out : ReactNode) : option ReactNode :=
  element_children <$> content_region_of out.

(** The content of the content region, [n] levels down. *)
Fixpoint unwrap_times (n : nat) (out : ReactNode) : option ReactNode :=
  match n with
  | O => Some out
  | S n' => unwrap out ≫= unwrap_times n'
  end.

(** ** The call, as the engine and the JSX runtime carry it out *)

(** The function above takes a props object of plain values and leaves out
    what happens around the JSX: the engine reads [children] off whatever
    argument the caller passed, and the JSX runtime constructs the three
    elements.  The definitions below follow the call through both. *)

(** A property of an object holds a value, or is an accessor whose getter
    is run, in the world as it is, when the property is read. *)
Inductive Property (World : Type) : Type :=
| Data (v : ReactNode)
| Accessor (get : Render World ReactNode).
Arguments Data {World} v.
Arguments Accessor {World} get.

(** What a caller can pass as the one argument: nothing or [undefined],
    [null], a primitive (a boolean, a number, a string), or an object. *)
Inductive Argument (World : Type) : Type :=
| ArgUndefined
| ArgNull
| ArgPrimitive
| ArgObject (fields : gmap string (Property World)).
Arguments ArgUndefined {World}.
Arguments ArgNull {World}.
Arguments ArgPrimitive {World}.
Arguments ArgObject {World} fields.

(** What the JSX runtime does to the world when it constructs an element.
    [static] tells children written as separate JSX children ([jsxs]) from
    children given as one expression ([jsx]). *)
Definition Runtime (World : Type) : Type :=
  bool → string → Props → World → World.

Section Call.

Context {World : Type}.

(** [throw reason] : end the call, leaving the world as it was. *)
Definition throw {A : Type} (reason : string) : Render World A :=
  λ w, (Throw reason, w).

(** The object of a props map: every field holds a value. *)
Definition plain (props : Props) : Argument World :=
  ArgObject (Data <$> props).

(** The binding pattern [( {children} )].  Nothing can be read off
    [undefined] or [null]: the engine throws a [TypeError].  A primitive
    has no [children]; an object gives the value of the field, runs its
    getter, or has no such field. *)
Definition read_children (arg : Argument World) : Render World ReactNode :=
  match arg with
  | ArgUndefined | ArgNull => throw "TypeError"
  | ArgPrimitive => ret RUndefined
  | ArgObject fields =>
      match fields !! "children" with
      | None => ret RUndefined
      | Some (Data v) => ret v
      | Some (Accessor get) => get
      end
  end.

(** A JSX tag: the runtime constructs the element, and does to the world
    what it does. *)
Definition create_element (runtime : Runtime World)
    (static : bool) (type : string) (props : Props)
  : Render World ReactNode :=
  λ w, (Normal (jsx type props), runtime static type props w).

(** The call [DashBoardLayout(arg)]: [children] is read off the argument,
    then the [h1], the inner [div] and the outer [div] are constructed, in
    the order in which the engine evaluates the JSX. *)
Definition call_DashBoardLayout (runtime : Runtime World)
    (arg : Argument World) : Render World ReactNode :=
  bind (read_children arg) (λ children,
  bind (create_element runtime false "h1"
          {[ "children" := RText "Dashboard" ]}) (λ h1,
  bind (create_element runtime false "div"
          {[ "children" := children ]}) (λ content,
  create_element runtime true "div"
    {[ "children" := RArray [ h1; content ] ]}))).

(** The production build constructs elements and does nothing else. *)
Definition production : Runtime World :=
  λ _ _ _ w, w.

End Call.

(** The development build checks keys while it constructs an element: where
    the children given as one expression are a sequence that holds an
    element without a key, it writes a warning to the console.  No element
    of [ReactNode] carries a key.  Here the world is the console. *)
Definition is_element (v : ReactNode) : bool :=
  match v with
  | RElement _ _ => true
  | _ => false
  end.

Definition key_warning : string :=
  "Warning: Each child in a list should have a unique key prop.".

Definition development : Runtime (list string) :=
  λ static type props console,
    match static, props !! "children" with
    | false, Some (RArray items) =>
        if existsb is_element items
        then console ++ [ key_warning ]
        else console
    | _, _ => console
    end.

(** [<DashBoardLayout>{items.map(item => <p>{item}</p>)}</DashBoardLayout>]
    for the items [one] and [two]. *)
Definition props_paragraphs : Props :=
  {[ "children" := RArray (element_of <$> two_paragraphs) ]}.

(** * Properties *)

(** ** The display of elements built by JSX *)

Section DisplayFacts.

Implicit Types (V : ReactNode) (type : string) (items : list ReactNode).

Lemma render_only_children type V :
  render (jsx type {[ "children" := V ]})
  = TOpen type ∅ :: render V ++ [TClose type].
Proof.
  unfold jsx. cbn [render].
  by rewrite lookup_fmap, lookup_singleton_eq, delete_singleton_eq.
Qed.

Lemma text_content_only_children type V :
  text_content (jsx type {[ "children" := V ]}) = text_content V.
Proof.
  unfold jsx. cbn [text_content].
  by rewrite lookup_fmap, lookup_singleton_eq.
Qed.

Lemma node_count_only_children type V :
  node_count (jsx type {[ "children" := V ]}) = S (node_count V).
Proof.
  unfold jsx. cbn [node_count].
  by rewrite lookup_fmap, lookup_singleton_eq.
Qed.

Lemma element_children_only_children type V :
  element_children (jsx type {[ "children" := V ]}) = V.
Proof. unfold jsx, element_children, prop. by rewrite lookup_singleton_eq. Qed.

Lemma render_heading :
  render heading = [ TOpen "h1" ∅; TText "Dashboard"; TClose "h1" ].
Proof. unfold heading. by rewrite render_only_children. Qed.

Lemma element_children_content_region V :
  element_children (content_region V) = V.
Proof. apply element_children_only_children. Qed.

Lemma render_content_region V :
  render (content_region V) = TOpen "div" ∅ :: render V ++ [TClose "div"].
Proof. apply render_only_children. Qed.

(** A sequence of elements is its own list of child nodes. *)
Lemma toArray_elements (sibs : list (string * Props)) :
  toArray (RArray (element_of <$> sibs)) = element_of <$> sibs.
Proof.
  cbn [toArray]. induction sibs as [|[type props] sibs IH]; [done|].
  cbn. f_equal. exact IH.
Qed.

(** Absent children, and the values JSX treats as nothing, display
    nothing. *)
Lemma absent_children_empty (props : Props) :
  props !! "children" = None → empty_node (prop props "children").
Proof. unfold prop. by intros ->. Qed.

Lemma nothing_empty V :
  V = RUndefined ∨ V = RNull ∨ (∃ b, V = RBool b) ∨ V = RText EmptyString
  ∨ V = RArray [] →
  empty_node V.
Proof. intros [->|[->|[[b ->]|[->| ->]]]]; reflexivity. Qed.

End DisplayFacts.

(** ** What the component returns *)

Section LayoutFacts.

Context {World : Type}.

Implicit Types (props : Props) (w : World).

(** The call completes with the tree written in the component, built around
    [props.children], in the world it started in. *)
Lemma DashBoardLayout_returns props w :
  DashBoardLayout props w
  = (Normal (jsx "div" {[ "children" :=
       RArray [ heading; content_region (prop props "children") ] ]}), w).
Proof. reflexivity. Qed.

Lemma render_returned V :
  render (jsx "div" {[ "children" := RArray [ heading; content_region V ] ]})
  = frame_before ++ render V ++ frame_after.
Proof.
  rewrite render_only_children. cbn [render map concat].
  rewrite render_heading, render_content_region, app_nil_r.
  unfold frame_before, frame_after. cbn [app].
  by rewrite <-app_assoc.
Qed.

Lemma children_of_returned V :
  toArray (element_children
    (jsx "div" {[ "children" := RArray [ heading; content_region V ] ]}))
  = [ heading; content_region V ].
Proof. by rewrite element_children_only_children. Qed.

Lemma text_content_returned V :
  text_content
    (jsx "div" {[ "children" := RArray [ heading; content_region V ] ]})
  = "Dashboard" +:+ text_content V.
Proof.
  rewrite text_content_only_children. cbn [text_content map String.concat].
  unfold heading, content_region. by rewrite !text_content_only_children.
Qed.

Lemma node_count_returned V :
  node_count
    (jsx "div" {[ "children" := RArray [ heading; content_region V ] ]})
  = (5 + node_count V)%nat.
Proof.
  rewrite node_count_only_children. cbn [node_count map foldr].
  unfold heading, content_region. rewrite !node_count_only_children.
  cbn [node_count]. lia.
Qed.

(** A prop other than [children] does not reach the component. *)
Lemma DashBoardLayout_other_prop props w (name : string) (v : ReactNode) :
  name ≠ "children" →
  DashBoardLayout (<[ name := v ]> props) w = DashBoardLayout props w.
Proof.
  intros Hname. unfold DashBoardLayout, prop.
  by rewrite lookup_insert_ne.
Qed.

End LayoutFacts.

(** ** The call through the engine and the runtime *)

Section CallFacts.

Context {World : Type}.

Implicit Types (props : Props) (w : World) (runtime : Runtime World).

(** Once [children] is read, the call constructs the three elements and
    returns the tree; if the read throws, nothing is constructed. *)
Lemma call_after_read runtime (arg : Argument World) w :
  call_DashBoardLayout runtime arg w
  = match read_children arg w with
    | (Normal V, w') =>
        (Normal (jsx "div"
           {[ "children" := RArray [ heading; content_region V ] ]}),
         runtime true "div"
           {[ "children" := RArray [ heading; content_region V ] ]}
           (runtime false "div" {[ "children" := V ]}
              (runtime false "h1" {[ "children" := RText "Dashboard" ]}
                 w')))
    | (Throw reason, w') => (Throw reason, w')
    end.
Proof.
  unfold call_DashBoardLayout, bind.
  by destruct (read_children arg w) as [[V|reason] w'].
Qed.

Lemma read_children_plain props w :
  read_children (plain props) w = (Normal (prop props "children"), w).
Proof.
  unfold read_children, plain, prop. rewrite lookup_fmap.
  by destruct (props !! "children").
Qed.

(** On a props object of plain values the call returns the tree of
    [DashBoardLayout]; under the production build it is the same call. *)
Lemma call_plain_tree runtime props w :
  fst (call_DashBoardLayout runtime (plain props) w)
  = fst (DashBoardLayout props w).
Proof. by rewrite call_after_read, read_children_plain. Qed.

Lemma call_production_plain props w :
  call_DashBoardLayout production (plain props) w = DashBoardLayout props w.
Proof. by rewrite call_after_read, read_children_plain. Qed.

End CallFacts.

(** ** The properties of the specification *)

Section Claims.

Context {World : Type}.

Implicit Types (props : Props) (w : World).

(** C1.  For every children value, absent ones included, the returned tree
    displays the fixed heading "Dashboard" and then, in order, the children
    as they were given: the first child of the tree is the heading, the
    second holds the children themselves, and in document order the tokens
    of the heading come before those of the children. *)
Theorem layout_heading_then_children props w :
  ∃ out inner,
    DashBoardLayout props w = (Normal out, w)
    ∧ heading_of out = Some heading
    ∧ content_region_of out = Some inner
    ∧ element_children inner = prop props "children"
    ∧ render heading = [ TOpen "h1" ∅; TText "Dashboard"; TClose "h1" ]
    ∧ render out
      = [ TOpen "div" ∅ ] ++ render heading ++ [ TOpen "div" ∅ ]
        ++ render (prop props "children") ++ [ TClose "div"; TClose "div" ]
    ∧ followed_by (render out) (render heading)
        (render (prop props "children")).
Proof.
  eexists _, (content_region (prop props "children")).
  split; [apply DashBoardLayout_returns|].
  unfold heading_of, content_region_of. rewrite children_of_returned.
  split_and!.
  - reflexivity.
  - reflexivity.
  - apply element_children_only_children.
  - apply render_heading.
  - rewrite render_returned, render_heading. reflexivity.
  - rewrite render_returned, render_heading.
    exists [ TOpen "div" ∅ ], [ TOpen "div" ∅ ], frame_after. reflexivity.
Qed.

(** C2.  The children in the returned tree are exactly the children given:
    the content region holds them unchanged and holds nothing else, and
    around them the tree is the same for every input, so that they are
    displayed once, whole, and the tree has five nodes more than they
    have. *)
Theorem layout_children_exactly_once :
  ∃ before after : list Token, ∀ props w,
    ∃ out inner,
      DashBoardLayout props w = (Normal out, w)
      ∧ content_region_of out = Some inner
      ∧ element_props inner = Some {[ "children" := prop props "children" ]}
      ∧ element_children inner = prop props "children"
      ∧ render out = before ++ render (prop props "children") ++ after
      ∧ length (render out)
        = (length before + length (render (prop props "children"))
           + length after)%nat
      ∧ node_count out = (5 + node_count (prop props "children"))%nat.
Proof.
  exists frame_before, frame_after. intros props w.
  eexists _, (content_region (prop props "children")).
  split; [apply DashBoardLayout_returns|].
  unfold content_region_of. rewrite children_of_returned.
  split_and!.
  - reflexivity.
  - reflexivity.
  - apply element_children_only_children.
  - apply render_returned.
  - rewrite render_returned, !length_app. lia.
  - apply node_count_returned.
Qed.

(** C3.  The component throws only while it reads [children]
    off its argument.  For every props object of plain values, the one
    without a [children] field included, and for a primitive argument, the
    call completes normally with its tree.  Called with [undefined] or
    [null] it throws a [TypeError] and leaves the world as it was.  Those
    two, and a [children] accessor whose getter throws, are the only
    throws: constructing the three elements has no error branch. *)
Theorem layout_throws_only_reading_children (runtime : Runtime World) w :
  (∀ props,
     fst (call_DashBoardLayout runtime (plain props) w)
     = Normal (jsx "div" {[ "children" :=
         RArray [ heading; content_region (prop props "children") ] ]}))
  ∧ (∃ out,
       fst (call_DashBoardLayout runtime (plain props_none) w) = Normal out)
  ∧ (∃ out, fst (call_DashBoardLayout runtime ArgPrimitive w) = Normal out)
  ∧ call_DashBoardLayout runtime ArgUndefined w = (Throw "TypeError", w)
  ∧ call_DashBoardLayout runtime ArgNull w = (Throw "TypeError", w)
  ∧ (∀ (arg : Argument World) (reason : string),
       fst (call_DashBoardLayout runtime arg w) = Throw reason
       ↔ ((arg = ArgUndefined ∨ arg = ArgNull) ∧ reason = "TypeError")
         ∨ (∃ fields get,
              arg = ArgObject fields
              ∧ fields !! "children" = Some (Accessor get)
              ∧ fst (get w) = Throw reason)).
Proof.
  split_and!.
  - intros props. by rewrite call_after_read, read_children_plain.
  - eexists. by rewrite call_after_read, read_children_plain.
  - eexists. by rewrite call_after_read.
  - by rewrite call_after_read.
  - by rewrite call_after_read.
  - intros arg reason. rewrite call_after_read. split.
    + destruct arg as [| | |fields]; cbn [read_children throw ret fst].
      * intros [= <-]. left. by split; [left|].
      * intros [= <-]. left. by split; [right|].
      * discriminate.
      * destruct (fields !! "children") as [[v|get]|] eqn:Hfield;
          [discriminate| |discriminate].
        intros Hthrow. right. exists fields, get. split_and!; [done..|].
        by destruct (get w) as [[V|reason'] w'].
    + intros [[[-> | ->] ->]|(fields & get & -> & Hfield & Hthrow)];
        [done..|].
      cbn [read_children]. rewrite Hfield.
      by destruct (get w) as [[V|reason'] w'].
Qed.

(** C4.  The returned tree is two nested containers: an outer [div] whose
    content is, in order, the heading and an inner [div], and the children
    are the content of the inner [div]. *)
Theorem layout_two_nested_containers props w :
  ∃ out inner,
    DashBoardLayout props w = (Normal out, w)
    ∧ out = RElement "div" {[ "children" := RArray [ heading; inner ] ]}
    ∧ inner = RElement "div" {[ "children" := prop props "children" ]}
    ∧ element_type out = Some "div"
    ∧ toArray (element_children out) = [ heading; inner ]
    ∧ element_type heading = Some "h1"
    ∧ element_type inner = Some "div"
    ∧ element_children inner = prop props "children".
Proof.
  eexists _, (content_region (prop props "children")).
  split; [apply DashBoardLayout_returns|].
  rewrite children_of_returned.
  split_and!; reflexivity.
Qed.

(** C5.  With the text "Hello" as children, whatever the other props, the
    returned tree displays "Dashboard" and after it "Hello". *)
Theorem layout_hello props w :
  ∃ out,
    DashBoardLayout (<[ "children" := RText "Hello" ]> props) w
    = (Normal out, w)
    ∧ render out
      = [ TOpen "div" ∅; TOpen "h1" ∅; TText "Dashboard"; TClose "h1";
          TOpen "div" ∅; TText "Hello"; TClose "div"; TClose "div" ]
    ∧ followed_by (render out) [ TText "Dashboard" ] [ TText "Hello" ]
    ∧ text_content out = "DashboardHello".
Proof.
  eexists. split; [apply DashBoardLayout_returns|].
  unfold prop. rewrite lookup_insert_eq. cbn [default from_option id].
  rewrite render_returned, text_content_returned.
  split_and!; try reflexivity.
  exists [ TOpen "div" ∅; TOpen "h1" ∅ ], [ TClose "h1"; TOpen "div" ∅ ],
    frame_after.
  reflexivity.
Qed.

(** C6.  With children absent or empty, the returned tree still displays
    the heading "Dashboard", and its content region displays nothing: the
    inner [div] opens and closes with nothing in between. *)
Theorem layout_empty_children props w :
  props !! "children" = None ∨ empty_node (prop props "children") →
  ∃ out inner,
    DashBoardLayout props w = (Normal out, w)
    ∧ heading_of out = Some heading
    ∧ text_content heading = "Dashboard"
    ∧ content_region_of out = Some inner
    ∧ render inner = [ TOpen "div" ∅; TClose "div" ]
    ∧ render out
      = [ TOpen "div" ∅; TOpen "h1" ∅; TText "Dashboard"; TClose "h1";
          TOpen "div" ∅; TClose "div"; TClose "div" ]
    ∧ (props !! "children" = None → element_children inner = RUndefined).
Proof.
  intros Hempty.
  assert (render (prop props "children") = []) as Hnothing.
  { destruct Hempty as [Habsent|Hempty]; [|exact Hempty].
    by apply absent_children_empty. }
  eexists _, (content_region (prop props "children")).
  split; [apply DashBoardLayout_returns|].
  unfold heading_of, content_region_of. rewrite children_of_returned.
  split_and!.
  - reflexivity.
  - reflexivity.
  - reflexivity.
  - by rewrite render_content_region, Hnothing.
  - by rewrite render_returned, Hnothing.
  - intros Habsent. rewrite element_children_content_region.
    unfold prop. by rewrite Habsent.
Qed.

(** C7.  With a sequence of sibling elements as children, the content
    region holds every sibling, at the position it had in the sequence, and
    displays them one after the other in that order. *)
Theorem layout_siblings_in_order (sibs : list (string * Props)) props w :
  ∃ out inner,
    DashBoardLayout (<[ "children" := RArray (element_of <$> sibs) ]> props) w
    = (Normal out, w)
    ∧ content_region_of out = Some inner
    ∧ element_type inner = Some "div"
    ∧ toArray (element_children inner) = element_of <$> sibs
    ∧ (∀ (i : nat) (tp : string * Props),
         sibs !! i = Some tp ↔
         toArray (element_children inner) !! i = Some (element_of tp))
    ∧ render inner
      = TOpen "div" ∅ :: concat (render <$> (element_of <$> sibs))
        ++ [ TClose "div" ].
Proof.
  eexists _, (content_region (RArray (element_of <$> sibs))).
  split.
  { rewrite DashBoardLayout_returns. unfold prop.
    by rewrite lookup_insert_eq. }
  unfold content_region_of.
  rewrite children_of_returned, !element_children_content_region,
    toArray_elements.
  split_and!.
  - reflexivity.
  - reflexivity.
  - reflexivity.
  - intros i tp. rewrite list_lookup_fmap. split.
    + by intros ->.
    + destruct (sibs !! i) as [[type' props']|]; [|done].
      destruct tp as [type props0]. unfold element_of. cbn.
      by intros [= -> ->].
  - apply render_content_region.
Qed.

(** C8.  A render has no effect of its own and is
    deterministic.  On a props object of plain values the world after the
    call is the world after the three constructions of the JSX runtime, of
    the [h1], the inner [div] and the outer [div] in that order, and
    nothing else; under the production build, which constructs silently,
    the world is left as it was.  Two renders with equal children return
    equal trees, whatever the runtime, the world and the other props. *)
Theorem layout_only_runtime_effects
    (runtime runtime' : Runtime World) (V : ReactNode) props props' w w' :
  snd (call_DashBoardLayout runtime (plain props) w)
  = runtime true "div"
      {[ "children" :=
           RArray [ heading; content_region (prop props "children") ] ]}
      (runtime false "div" {[ "children" := prop props "children" ]}
         (runtime false "h1" {[ "children" := RText "Dashboard" ]} w))
  ∧ snd (call_DashBoardLayout production (plain props) w) = w
  ∧ fst (call_DashBoardLayout runtime
           (plain (<[ "children" := V ]> props)) w)
    = fst (call_DashBoardLayout runtime'
             (plain (<[ "children" := V ]> props')) w').
Proof.
  rewrite !call_after_read, !read_children_plain. cbn [fst snd].
  split_and!; [reflexivity..|].
  unfold prop. by rewrite !lookup_insert_eq.
Qed.

(** C9.  The result depends on the [children] field alone: two props
    objects with equal children give equal results, whatever their other
    fields. *)
Theorem layout_reads_only_children props1 props2 w :
  prop props1 "children" = prop props2 "children" →
  DashBoardLayout props1 w = DashBoardLayout props2 w.
Proof.
  intros Hsame. rewrite !DashBoardLayout_returns. by rewrite Hsame.
Qed.

(** C10.  For every input the outer container has exactly two children, in
    order: an [h1] whose whole text is "Dashboard", the same for every
    input, and one [div]. *)
Theorem layout_outer_children :
  ∃ h : ReactNode,
    element_type h = Some "h1"
    ∧ element_props h = Some {[ "children" := RText "Dashboard" ]}
    ∧ text_content h = "Dashboard"
    ∧ ∀ props w,
        ∃ out inner,
          DashBoardLayout props w = (Normal out, w)
          ∧ element_props out = Some {[ "children" := RArray [ h; inner ] ]}
          ∧ toArray (element_children out) = [ h; inner ]
          ∧ length (toArray (element_children out)) = 2%nat
          ∧ element_type inner = Some "div".
Proof.
  exists heading. split_and!; [reflexivity..|].
  intros props w. eexists _, (content_region (prop props "children")).
  split; [apply DashBoardLayout_returns|].
  rewrite children_of_returned. split_and!; reflexivity.
Qed.

End Claims.

(** ** The properties at concrete inputs *)

Lemma layout_empty_children_witness :
  (props_none !! "children" = None
   ∨ empty_node (prop props_none "children"))
  ∧ ∃ out inner,
      DashBoardLayout props_none tt = (Normal out, tt)
      ∧ heading_of out = Some heading
      ∧ text_content heading = "Dashboard"
      ∧ content_region_of out = Some inner
      ∧ render inner = [ TOpen "div" ∅; TClose "div" ]
      ∧ render out
        = [ TOpen "div" ∅; TOpen "h1" ∅; TText "Dashboard"; TClose "h1";
            TOpen "div" ∅; TClose "div"; TClose "div" ]
      ∧ (props_none !! "children" = None
         → element_children inner = RUndefined).
Proof.
  split; [left; reflexivity|].
  apply (layout_empty_children props_none tt). left; reflexivity.
Defined.

(** Called without an argument, the component throws. *)
Lemma layout_throws_on_undefined :
  fst (call_DashBoardLayout (World := unit) production ArgUndefined tt)
  = Throw "TypeError"
  ∧ ¬ ∃ out,
        fst (call_DashBoardLayout (World := unit) production ArgUndefined tt)
        = Normal out.
Proof. split; [reflexivity|]. by intros [out Hout]. Qed.

(** Under the development build, a render of a sequence of elements without
    keys writes to the console. *)
Lemma layout_warns_in_development :
  snd (call_DashBoardLayout development (plain props_paragraphs) [])
  = [ key_warning ]
  ∧ snd (call_DashBoardLayout development (plain props_paragraphs) []) ≠ [].
Proof.
  assert (snd (call_DashBoardLayout development (plain props_paragraphs) [])
          = [ key_warning ]) as Hconsole.
  { rewrite call_after_read, read_children_plain. reflexivity. }
  split; [exact Hconsole|]. by rewrite Hconsole.
Qed.

Lemma layout_reads_only_children_witness :
  prop props_hello_title "children" = prop props_hello "children"
  ∧ DashBoardLayout props_hello_title tt = DashBoardLayout props_hello tt.
Proof.
  split; [reflexivity|].
  apply (layout_reads_only_children props_hello_title props_hello).
  reflexivity.
Defined.

(** * Further properties of the component *)

Section More.

Context {World : Type}.

Implicit Types (props : Props) (w : World) (V : ReactNode).

Lemma concat_replicate_snoc {A : Type} (n : nat) (l : list A) :
  concat (replicate n l) ++ l = l ++ concat (replicate n l).
Proof.
  induction n as [|n IH]; cbn [replicate concat].
  - by rewrite app_nil_r.
  - by rewrite <-app_assoc, IH.
Qed.

(** X1.  The returned tree determines the children: two renders that return
    the same tree were given the same children, so that different children
    never give the same tree. *)
Theorem layout_tree_determines_children props1 props2 (w1 w2 : World) :
  fst (DashBoardLayout props1 w1) = fst (DashBoardLayout props2 w2) →
  prop props1 "children" = prop props2 "children".
Proof.
  rewrite !DashBoardLayout_returns. cbn [fst]. intros Hsame.
  set (V1 := prop props1 "children") in *.
  set (V2 := prop props2 "children") in *.
  assert (RArray [ heading; content_region V1 ]
          = RArray [ heading; content_region V2 ]) as Hcontent.
  { rewrite <-(element_children_only_children "div" (RArray [ _; _ ])).
    rewrite <-(element_children_only_children "div"
                 (RArray [ heading; content_region V2 ])).
    f_equal. congruence. }
  assert (content_region V1 = content_region V2) as Hregion by congruence.
  apply (f_equal element_children) in Hregion.
  by rewrite !element_children_content_region in Hregion.
Qed.

(** X2.  Layouts nest: the tree of [n] layouts around a children value
    displays the children once, inside [n] copies of the frame, and has
    [5 * n] nodes more than the children. *)
Theorem nested_layout_display (n : nat) V w :
  ∃ out,
    nested n V w = (Normal out, w)
    ∧ render out
      = concat (replicate n frame_before) ++ render V
        ++ concat (replicate n frame_after)
    ∧ node_count out = (5 * n + node_count V)%nat.
Proof.
  induction n as [|n (inner & Hrun & Hrender & Hcount)].
  - exists V. split_and!; [reflexivity| |reflexivity].
    cbn [replicate concat app]. by rewrite app_nil_r.
  - exists (jsx "div"
      {[ "children" := RArray [ heading; content_region inner ] ]}).
    split_and!.
    + cbn [nested]. unfold bind. rewrite Hrun.
      rewrite DashBoardLayout_returns. unfold prop.
      by rewrite lookup_singleton_eq.
    + rewrite render_returned, Hrender. cbn [replicate concat].
      rewrite <-!app_assoc. do 3 f_equal.
      apply concat_replicate_snoc.
    + rewrite node_count_returned, Hcount. lia.
Qed.

(** X3.  The component never hands its children back bare: whatever the
    children, the returned tree is one [div] element, different from the
    children and with more nodes than they have, and it displays
    something. *)
Theorem layout_never_bare props w :
  ∃ out,
    DashBoardLayout props w = (Normal out, w)
    ∧ element_type out = Some "div"
    ∧ out ≠ prop props "children"
    ∧ (node_count (prop props "children") < node_count out)%nat
    ∧ toArray out = [ out ]
    ∧ ¬ empty_node out.
Proof.
  eexists. split; [apply DashBoardLayout_returns|]. split_and!.
  - reflexivity.
  - intros Hsame. apply (f_equal node_count) in Hsame.
    rewrite node_count_returned in Hsame. lia.
  - rewrite node_count_returned. lia.
  - reflexivity.
  - unfold empty_node. by rewrite render_returned.
Qed.

(** X4.  A props object without a [children] field is rendered like one
    whose [children] is [undefined], whatever else the two objects hold. *)
Theorem layout_absent_is_undefined props props' w :
  DashBoardLayout (delete "children" props) w
  = DashBoardLayout (<[ "children" := RUndefined ]> props') w.
Proof.
  rewrite !DashBoardLayout_returns. unfold prop.
  by rewrite lookup_delete_eq, lookup_insert_eq.
Qed.

(** X5.  The children are found again under [n] nested layouts: going down
    the content regions of the returned tree [n] times gives the children
    back, unchanged. *)
Theorem nested_layout_unwraps (n : nat) V w :
  ∃ out, nested n V w = (Normal out, w) ∧ unwrap_times n out = Some V.
Proof.
  induction n as [|n (inner & Hrun & Hdown)].
  - by exists V.
  - exists (jsx "div"
      {[ "children" := RArray [ heading; content_region inner ] ]}).
    split.
    + cbn [nested]. unfold bind. rewrite Hrun.
      rewrite DashBoardLayout_returns. unfold prop.
      by rewrite lookup_singleton_eq.
    + cbn [unwrap_times]. unfold unwrap at 1, content_region_of.
      rewrite children_of_returned.
      change ([ heading; content_region inner ] !! 1%nat)
        with (Some (content_region inner)).
      cbn [fmap option_fmap option_map mbind option_bind].
      by rewrite element_children_content_region.
Qed.

End More.

Lemma layout_tree_determines_children_witness :
  fst (DashBoardLayout props_hello_title 0%nat)
  = fst (DashBoardLayout props_hello 1%nat)
  ∧ prop props_hello_title "children" = prop props_hello "children".
Proof.
  split; [reflexivity|].
  apply (layout_tree_determines_children props_hello_title props_hello
           0%nat 1%nat).
  reflexivity.
Defined.
